(** * solvedac_server: request mediation between protocol capabilities
      and the solved.ac HTTP API

    A shallow embedding of [solvedac_server.py].  Python values decoded
    from JSON are an inductive type, the module-level [state] dictionary
    and the requests handed to the transport form an explicit world that
    every coroutine threads through, and [raise] is the error side of a
    small state-and-exception monad.  Text is kept as UTF-8 byte strings,
    so a Python [str] and its embedding have the same substrings. *)

From Stdlib Require Import ZArith String.
From Stdlib Require Import Floats.SpecFloat.
From stdpp Require Import base option list strings gmap pretty.

Local Open Scope Z_scope.

(** ** Text *)

(** The line feed that the source writes as [\n]. *)
Definition LF : string := String (Ascii.ascii_of_nat 10) "".

(** [contains hay needle]: [needle] occurs in [hay] (Python's [needle in hay]). *)
Definition contains (hay needle : string) : Prop :=
  ∃ before after, hay = before +:+ needle +:+ after.

(** The decimal numeral of an integer: what [str(n)] returns for a Python
    [int] when it returns. *)
Definition str_of_int (n : Z) : string := pretty n.

(** ** Python values as [resp.json()] produces them *)

Unset Elimination Schemes.
Inductive pyobj : Type :=
| PyNone
| PyBool (b : bool)
| PyInt (n : Z)
| PyFloat (f : spec_float)
| PyStr (s : string)
| PyList (l : list pyobj)
| PyDict (d : gmap string pyobj).
Set Elimination Schemes.

(** ** The HTTP client, requests and responses *)

(** [httpx.AsyncClient(base_url=..., headers=..., timeout=..., follow_redirects=...)];
    the timeout is in whole seconds. *)
Record AsyncClient := {
  base_url : string;
  headers : list (string * string);
  timeout : Z;
  follow_redirects : bool
}.

(** One [client.get(path, params=...)]. *)
Record Request := {
  via : AsyncClient;
  path : string;
  params : list (string * pyobj)
}.

(** What the handlers read of an [httpx.Response]: the status code and the
    decoded body, [None] when the body is not JSON. *)
Record Response := {
  status_code : Z;
  json : option pyobj
}.

(** The transport either answers or fails with an [httpx.RequestError],
    of which only [str(e)] is kept. *)
Inductive Reply :=
| Responded (resp : Response)
| TransportFailed (detail : string).

(** ** Exceptions *)

Inductive exn :=
| RuntimeError (msg : string)
| ValueError (msg : string)
| HTTPStatusError (response : Response)
| RequestError (detail : string)
| JSONDecodeError
| ValidationError (title : string).

Inductive outcome (A : Type) :=
| Ok (a : A)
| Raise (e : exn).
Arguments Ok {A} a.
Arguments Raise {A} e.

(** ** The world: [state["http_client"]] and the requests sent so far *)

Record World := {
  http_client : option AsyncClient;
  sent : list Request
}.

(** [state = {"http_client": None}] at import time, nothing sent yet. *)
Definition initial_world : World := {| http_client := None; sent := [] |}.

Definition M (A : Type) : Type := World → World * outcome A.

Definition ret {A} (a : A) : M A := λ w, (w, Ok a).
Definition raise {A} (e : exn) : M A := λ w, (w, Raise e).
Definition bind {A B} (m : M A) (k : A → M B) : M B := λ w,
  match m w with
  | (w', Ok a) => k a w'
  | (w', Raise e) => (w', Raise e)
  end.

(** [try: body  except ...: handler]: the handler sees what [body] raised;
    what the handler raises itself is not caught again. *)
Definition try_except {A} (body : M A) (handler : exn → M A) : M A := λ w,
  match body w with
  | (w', Ok a) => (w', Ok a)
  | (w', Raise e) => handler e w'
  end.

(** The monad is used through stdpp's [x ← m; k] notation. *)
#[global] Instance M_ret : MRet M := @ret.
#[global] Instance M_bind : MBind M := λ A B k m, bind m k.

(** [state.get("http_client")] *)
Definition state_get_http_client : M (option AsyncClient) :=
  λ w, (w, Ok (http_client w)).

Definition of_outcome {A} (r : outcome A) : M A := λ w, (w, r).

(** [sys.get_int_max_str_digits()]; the source leaves CPython's default. *)
Definition int_max_str_digits : Z := 4300.

(** [str(n)] as CPython computes it, which is also what an f-string puts
    in place of [{n}]: an integer of more than [int_max_str_digits]
    decimal digits is refused with a [ValueError].  An integer has more
    than [k] digits exactly when its absolute value is at least [10^k]. *)
Definition int_to_str (n : Z) : outcome string :=
  if 10 ^ int_max_str_digits <=? Z.abs n then
    Raise (ValueError
      "Exceeds the limit (4300 digits) for integer string conversion; use sys.set_int_max_str_digits() to increase the limit")
  else Ok (str_of_int n).

(** ** Schema types

    The three pydantic models, all with [extra="ignore"].  Validation is
    pydantic's default (lax) mode applied to decoded JSON.  A value that
    already has the field's type is taken as it is, and [None], lists and
    dictionaries are never accepted for a scalar field.  Which other
    scalars lax mode converts (a numeric string or an integral float for
    an [int] field, [0]/[1] or ["true"] for a [bool] field) is decided by
    pydantic alone, so those tables are parameters of the development. *)
Class LaxMode := {
  lax_int : pyobj → option Z;
  lax_bool : pyobj → option bool
}.

Section FieldValidators.
Context `{LaxMode}.

Definition validate_str (v : pyobj) : option string :=
  match v with
  | PyStr s => Some s
  | _ => None
  end.

Definition validate_int (v : pyobj) : option Z :=
  match v with
  | PyInt n => Some n
  | PyBool _ | PyFloat _ | PyStr _ => lax_int v
  | PyNone | PyList _ | PyDict _ => None
  end.

Definition validate_bool (v : pyobj) : option bool :=
  match v with
  | PyBool b => Some b
  | PyInt _ | PyFloat _ | PyStr _ => lax_bool v
  | PyNone | PyList _ | PyDict _ => None
  end.

(** A field without a default: the key has to be there and its value
    has to validate. *)
Definition required {A} (validate : pyobj → option A)
    (d : gmap string pyobj) (key : string) : option A :=
  d !! key ≫= validate.

(** [Optional[T] = None]: an absent key and an explicit [None] both give
    [None]; anything else has to validate as [T]. *)
Definition optional {A} (validate : pyobj → option A)
    (d : gmap string pyobj) (key : string) : option (option A) :=
  match d !! key with
  | None | Some PyNone => Some None
  | Some v => Some <$> validate v
  end.
End FieldValidators.

(** [class UserShowResponse(BaseModel)] *)
Module UserShowResponse.
Record t := {
  handle : string;
  tier : Z;
  rating : Z;
  solvedCount : Z
}.

Section Validate.
Context `{LaxMode}.

Definition from_dict (d : gmap string pyobj) : option t :=
  handle ← required validate_str d "handle";
  tier ← required validate_int d "tier";
  rating ← required validate_int d "rating";
  solvedCount ← required validate_int d "solvedCount";
  Some {| handle := handle; tier := tier; rating := rating;
          solvedCount := solvedCount |}.

Definition model_validate (obj : pyobj) : outcome t :=
  match obj with
  | PyDict d =>
      match from_dict d with
      | Some u => Ok u
      | None => Raise (ValidationError "UserShowResponse")
      end
  | _ => Raise (ValidationError "UserShowResponse")
  end.
End Validate.
End UserShowResponse.

(** [class Problem(BaseModel)] *)
Module Problem.
Record t := {
  problemId : Z;
  titleKo : option string;
  level : Z;
  isSolvable : bool
}.

Section Validate.
Context `{LaxMode}.

Definition from_dict (d : gmap string pyobj) : option t :=
  problemId ← required validate_int d "problemId";
  titleKo ← optional validate_str d "titleKo";
  level ← required validate_int d "level";
  isSolvable ← required validate_bool d "isSolvable";
  Some {| problemId := problemId; titleKo := titleKo; level := level;
          isSolvable := isSolvable |}.

(** An element of [items: List[Problem]]. *)
Definition validate (obj : pyobj) : option t :=
  match obj with
  | PyDict d => from_dict d
  | _ => None
  end.
End Validate.
End Problem.

(** [class ProblemSearchResponse(BaseModel)] *)
Module ProblemSearchResponse.
Record t := {
  count : Z;
  items : list Problem.t
}.

Section Validate.
Context `{LaxMode}.

(** [List[Problem]]: a list whose elements all validate, in order. *)
Definition validate_items (v : pyobj) : option (list Problem.t) :=
  match v with
  | PyList l => mapM Problem.validate l
  | _ => None
  end.

Definition from_dict (d : gmap string pyobj) : option t :=
  count ← required validate_int d "count";
  items ← required validate_items d "items";
  Some {| count := count; items := items |}.

Definition model_validate (obj : pyobj) : outcome t :=
  match obj with
  | PyDict d =>
      match from_dict d with
      | Some r => Ok r
      | None => Raise (ValidationError "ProblemSearchResponse")
      end
  | _ => Raise (ValidationError "ProblemSearchResponse")
  end.
End Validate.
End ProblemSearchResponse.

(** ** Client lifecycle *)

Definition SOLVEDAC_API_BASE_URL : string := "https://solved.ac/api/v3".

(** The part of [lifespan] before [yield]. *)
Definition lifespan_enter : M () := λ w,
  ({| http_client :=
        Some {| base_url := SOLVEDAC_API_BASE_URL;
                headers := [("X-Solvedac-Language", "ko")];
                timeout := 10;
                follow_redirects := true |};
      sent := sent w |},
   Ok ()).

(** [await client.aclose()]: the pooled connections are released; nothing
    is sent and [state] is not touched. *)
Definition AsyncClient_aclose (client : AsyncClient) : M () := λ w, (w, Ok ()).

(** The [finally] block: a client that is still in the slot is closed, and
    the slot is cleared either way. *)
Definition lifespan_exit : M () := λ w,
  let w1 :=
    match http_client w with
    | Some client => (AsyncClient_aclose client w).1
    | None => w
    end in
  ({| http_client := None; sent := sent w1 |}, Ok ()).

(** [async with lifespan(app): body] *)
Definition lifespan {A} (body : M A) : M A := λ w,
  let '(w1, _) := lifespan_enter w in
  let '(w2, r) := body w1 in
  let '(w3, _) := lifespan_exit w2 in
  (w3, r).

(** ** Core operations *)

Section Core.
Context `{LaxMode}.

(** The remote side: what the transport gives back for a request, given
    the requests that went out before it. *)
Variable network : list Request → Request → Reply.

(** [await client.get(path, params=params)] *)
Definition AsyncClient_get (client : AsyncClient) (path : string)
    (params : list (string * pyobj)) : M Response := λ w,
  let req := {| via := client; path := path; params := params |} in
  let w' := {| http_client := http_client w; sent := sent w ++ [req] |} in
  match network (sent w) req with
  | Responded resp => (w', Ok resp)
  | TransportFailed detail => (w', Raise (RequestError detail))
  end.

(** [resp.raise_for_status()]: httpx returns on [is_success] (2xx) and
    raises [HTTPStatusError] carrying the response otherwise. *)
Definition raise_for_status (resp : Response) : M () :=
  if bool_decide (200 ≤ status_code resp ≤ 299) then mret ()
  else raise (HTTPStatusError resp).

(** [resp.json()] *)
Definition Response_json (resp : Response) : M pyobj :=
  match json resp with
  | Some v => mret v
  | None => raise JSONDecodeError
  end.

Definition get_user_info_core (handle : string) : M UserShowResponse.t :=
  client ← state_get_http_client;
  match client with
  | None => raise (RuntimeError "HTTP Client is not available.")
  | Some client =>
      try_except
        (resp ← AsyncClient_get client "/user/show" [("handle", PyStr handle)];
         _ ← raise_for_status resp;
         body ← Response_json resp;
         of_outcome (UserShowResponse.model_validate body))
        (λ e,
          match e with
          | HTTPStatusError response =>
              let s := status_code response in
              if s =? 404 then
                raise (ValueError
                  ("사용자 핸들 '" +:+ handle +:+ "'을(를) 찾을 수 없습니다."))
              else if s =? 429 then
                raise (RuntimeError
                  "요청이 많습니다(429). 잠시 후 다시 시도하세요.")
              else if (500 <=? s) && (s <? 600) then
                raise (RuntimeError
                  "solved.ac 서버 오류가 발생했습니다. 잠시 후 다시 시도하세요.")
              else raise e
          | RequestError detail =>
              raise (RuntimeError
                ("네트워크 오류로 사용자 정보를 가져오지 못했습니다: " +:+ detail))
          | _ => raise e
          end)
  end.

Definition search_problems_core (query : string) (page : Z)
    : M ProblemSearchResponse.t :=
  client ← state_get_http_client;
  match client with
  | None => raise (RuntimeError "HTTP Client is not available.")
  | Some client =>
      try_except
        (resp ← AsyncClient_get client "/search/problem"
                  [("query", PyStr query); ("page", PyInt page)];
         _ ← raise_for_status resp;
         body ← Response_json resp;
         of_outcome (ProblemSearchResponse.model_validate body))
        (λ e,
          match e with
          | HTTPStatusError response =>
              let s := status_code response in
              if s =? 429 then
                raise (RuntimeError
                  "요청이 많습니다(429). 잠시 후 다시 시도하세요.")
              else if (500 <=? s) && (s <? 600) then
                raise (RuntimeError
                  "solved.ac 서버 오류가 발생했습니다. 잠시 후 다시 시도하세요.")
              else raise e
          | RequestError detail =>
              raise (RuntimeError
                ("네트워크 오류로 문제 검색에 실패했습니다: " +:+ detail))
          | _ => raise e
          end)
  end.
End Core.

(** ** Prompt messages *)

Inductive Role := assistant | user.

Record TextContent := {
  type : string;
  text : string
}.

Record PromptMessage := {
  role : Role;
  content : TextContent
}.

(** The user message interpolates [{page}]; that conversion is the one
    step of the builder that can raise. *)
Definition search_workflow_prompt_core (natural_request : string) (page : Z)
    : outcome (list PromptMessage) :=
  let sys :=
    {| role := assistant;
       content :=
         {| type := "text";
            text :=
              "You are a Solved.ac search assistant." +:+ LF +:+
              "1) Convert the user's request into a precise Solved.ac query string " +:+
              "(e.g., `tier:g5..p5 tag:dfs -tag:greedy`)." +:+ LF +:+
              "2) Do NOT browse the web." +:+ LF +:+
              "3) Call the MCP TOOL `solvedac_search_problems` with {query, page}." +:+ LF +:+
              "4) Rank top 5 by suitability and show: problemId, titleKo, level." |} |} in
  match int_to_str page with
  | Raise e => Raise e
  | Ok page_text =>
      let usr :=
        {| role := user;
           content :=
             {| type := "text";
                text :=
                  "요청(자연어): " +:+ natural_request +:+ LF +:+
                  "페이지: " +:+ page_text +:+ LF +:+
                  "규칙: 쿼리를 먼저 제시하고, 이어서 리소스를 호출해 결과를 평가하세요." |} |} in
      Ok [sys; usr]
  end.

(** ** Capability bindings

    Each decorated function is registered together with the declarations
    of its parameters.  For a tool and for a resource the protocol runtime
    checks the supplied arguments against those declarations and only then
    calls the function, so such a binding has two parts here: the function
    as written, and the registered capability that guards it.  A prompt is
    registered as the function alone: its declarations are not enforced
    when it is rendered. *)

(** A parameter declared as [name: T = Field(default, ...)];
    [Field(...)] has no default. *)
Record FieldInfo (A : Type) := Field {
  default : option A;
  accepts : A → bool
}.
Arguments Field {A} default accepts.
Arguments default {A} f.
Arguments accepts {A} f.

(** The value a parameter receives: a supplied argument has to meet the
    declaration, an omitted one takes the default when there is one. *)
Definition bind_argument {A} (f : FieldInfo A) (supplied : option A) : option A :=
  match supplied with
  | Some v => if accepts f v then Some v else None
  | None => default f
  end.

Definition search_workflow_prompt (natural_request : string) (page : Z)
    : outcome (list PromptMessage) :=
  let sys :=
    {| role := assistant;
       content :=
         {| type := "text";
            text :=
              "You are a Solved.ac search assistant." +:+ LF +:+
              "1) Convert the user's request into a precise Solved.ac query string " +:+
              "(e.g., `tier:g5..p5 tag:dfs -tag:greedy`)." +:+ LF +:+
              "2) Do NOT browse the web." +:+ LF +:+
              "3) Call the MCP TOOL `solvedac_search_problems` with {query, page}." +:+ LF +:+
              "4) Rank top 5 by suitability and show: problemId, titleKo, level." |} |} in
  match int_to_str page with
  | Raise e => Raise e
  | Ok page_text =>
      let usr :=
        {| role := user;
           content :=
             {| type := "text";
                text :=
                  "요청(자연어): " +:+ natural_request +:+ LF +:+
                  "페이지: " +:+ page_text +:+ LF +:+
                  "규칙: 쿼리를 먼저 제시하고, 이어서 리소스를 호출해 결과를 평가하세요." |} |} in
      Ok [sys; usr]
  end.

(** [@app.context(name="defaults")] *)
Definition default_context : gmap string string := {[ "lang" := "ko" ]}.

Section Bindings.
Context `{LaxMode}.
Variable network : list Request → Request → Reply.

(** *** The functions as written *)

Definition get_user_info_tool (handle : string) : M UserShowResponse.t :=
  get_user_info_core network handle.

Definition search_problems_tool (query : string) (page : Z)
    : M ProblemSearchResponse.t :=
  search_problems_core network query page.

Definition get_user_info (handle : string) : M UserShowResponse.t :=
  get_user_info_core network handle.

Definition search_problems (query : string) (page : Z) (stub : string)
    : M ProblemSearchResponse.t :=
  search_problems_core network query page.

(** *** The registered capabilities *)

(** [handle: str = Field(...)], [query: str = Field(...)] *)
Definition required_str : FieldInfo string := Field None (λ _, true).

(** [page: int = Field(1, ge=1)] *)
Definition page_field : FieldInfo Z := Field (Some 1) (λ n, bool_decide (1 ≤ n)).

(** [stub: str = Field("_")] *)
Definition stub_field : FieldInfo string := Field (Some "_") (λ _, true).

(** [@app.tool(name="solvedac_get_user_info")] *)
Definition solvedac_get_user_info (handle : option string)
    : M UserShowResponse.t :=
  match bind_argument required_str handle with
  | Some handle => get_user_info_tool handle
  | None => raise (ValidationError "solvedac_get_user_info")
  end.

(** [@app.tool(name="solvedac_search_problems")] *)
Definition solvedac_search_problems (query : option string) (page : option Z)
    : M ProblemSearchResponse.t :=
  match bind_argument required_str query, bind_argument page_field page with
  | Some query, Some page => search_problems_tool query page
  | _, _ => raise (ValidationError "solvedac_search_problems")
  end.

(** [@app.resource("solvedac://users/{handle}")] *)
Definition resource_users (handle : option string) : M UserShowResponse.t :=
  match bind_argument required_str handle with
  | Some handle => get_user_info handle
  | None => raise (ValidationError "solvedac://users/{handle}")
  end.

(** [@app.resource("solvedac://problems/search/{stub}")] *)
Definition resource_problems_search
    (query : option string) (page : option Z) (stub : option string)
    : M ProblemSearchResponse.t :=
  match bind_argument required_str query, bind_argument page_field page,
        bind_argument stub_field stub with
  | Some query, Some page, Some stub => search_problems query page stub
  | _, _, _ => raise (ValidationError "solvedac://problems/search/{stub}")
  end.
End Bindings.

(** ** Failure kinds

    The names the specification gives to the exceptions raised above. *)

Definition ClientUnavailable : exn :=
  RuntimeError "HTTP Client is not available.".

Definition NotFound (handle : string) : exn :=
  ValueError ("사용자 핸들 '" +:+ handle +:+ "'을(를) 찾을 수 없습니다.").

Definition RateLimited : exn :=
  RuntimeError "요청이 많습니다(429). 잠시 후 다시 시도하세요.".

Definition RemoteUnavailable : exn :=
  RuntimeError "solved.ac 서버 오류가 발생했습니다. 잠시 후 다시 시도하세요.".

Definition UnexpectedStatus (response : Response) : exn :=
  HTTPStatusError response.

(** A [ValidationError] for call arguments, named after the capability. *)
Definition InvalidArgument (capability : string) : exn :=
  ValidationError capability.


(** * Properties *)

(** The world after one more request went out. *)
Definition after_send (w : World) (req : Request) : World :=
  {| http_client := http_client w; sent := sent w ++ [req] |}.

(** The request [get_user_info_core] issues through [client]. *)
Definition user_show_request (client : AsyncClient) (handle : string) : Request :=
  {| via := client; path := "/user/show"; params := [("handle", PyStr handle)] |}.

(** The request [search_problems_core] issues through [client]. *)
Definition search_problem_request (client : AsyncClient) (query : string)
    (page : Z) : Request :=
  {| via := client; path := "/search/problem";
     params := [("query", PyStr query); ("page", PyInt page)] |}.

(** ** Decimal numerals

    What it means for a text to be the decimal rendering of an integer,
    said by reading the text: its digits give the integer, there is no
    leading zero, and a negative integer has one minus sign in front. *)

Definition digit_of_char (c : Ascii.ascii) : option Z :=
  let n := Z.of_N (Ascii.N_of_ascii c) in
  if (48 <=? n) && (n <=? 57) then Some (n - 48) else None.

(** The value of a run of digits read after the value [acc]. *)
Fixpoint digits_value (acc : Z) (s : string) : option Z :=
  match s with
  | EmptyString => Some acc
  | String c s' =>
      match digit_of_char c with
      | Some d => digits_value (10 * acc + d) s'
      | None => None
      end
  end.

Definition minus_sign : Ascii.ascii := Ascii.ascii_of_nat 45.

Definition int_of_decimal (s : string) : option Z :=
  match s with
  | EmptyString => None
  | String c s' =>
      if Ascii.eqb c minus_sign then
        match s' with
        | EmptyString => None
        | _ => Z.opp <$> digits_value 0 s'
        end
      else digits_value 0 s
  end.

(** The text starts with one of the digits 1 to 9. *)
Definition leading_nonzero (s : string) : bool :=
  match s with
  | EmptyString => false
  | String c _ =>
      match digit_of_char c with
      | Some d => 0 <? d
      | None => false
      end
  end.

Definition decimal_numeral (s : string) (n : Z) : Prop :=
  int_of_decimal s = Some n
  ∧ (s = "0"
     ∨ leading_nonzero s = true
     ∨ ∃ s', s = String minus_sign s' ∧ leading_nonzero s' = true).

(** ** Well-formed and malformed response bodies *)


(** A required field is absent, or present with a value its type rejects. *)
Definition field_invalid {A} (validate : pyobj → option A)
    (d : gmap string pyobj) (key : string) : Prop :=
  d !! key = None ∨ ∃ v, d !! key = Some v ∧ validate v = None.





(** The JSON value [v] is an object with the fields of [p]; the optional
    title may be left out or be [null] when [p] has none. *)
Definition problem_json (v : pyobj) (p : Problem.t) : Prop :=
  ∃ d, v = PyDict d
    ∧ d !! "problemId" = Some (PyInt (Problem.problemId p))
    ∧ match Problem.titleKo p with
      | Some s => d !! "titleKo" = Some (PyStr s)
      | None => d !! "titleKo" = None ∨ d !! "titleKo" = Some PyNone
      end
    ∧ d !! "level" = Some (PyInt (Problem.level p))
    ∧ d !! "isSolvable" = Some (PyBool (Problem.isSolvable p)).

(** ** Characters of a text *)

(** [occurs c s]: the character [c] is somewhere in [s]. *)
Fixpoint occurs (c : Ascii.ascii) (s : string) : bool :=
  match s with
  | EmptyString => false
  | String x s' => Ascii.eqb x c || occurs c s'
  end.

(** The character of [LF]. *)
Definition lf : Ascii.ascii := Ascii.ascii_of_nat 10.

(** ** The demo client ([client_resources.py]) *)

(** [user.model_dump()]: the four fields as a dictionary. *)
Definition UserShowResponse_model_dump (u : UserShowResponse.t)
    : gmap string pyobj :=
  {[ "handle" := PyStr (UserShowResponse.handle u);
     "tier" := PyInt (UserShowResponse.tier u);
     "rating" := PyInt (UserShowResponse.rating u);
     "solvedCount" := PyInt (UserShowResponse.solvedCount u) ]}.

Section Demo.
Context `{LaxMode}.
Variable network : list Request → Request → Reply.

(** [main()].  Its [print] calls write to standard output only, which is
    no part of the world; the guard [if res.items] and the slice
    [res.items[:5]] feed nothing but those calls.  What is left is the
    order of the awaited calls inside [async with lifespan(app)]. *)
Definition main : M () :=
  lifespan
    (user ← get_user_info_core network "kyungbaee";
     res ← search_problems_core network "tier:s5..g5 tag:dp" 1;
     msgs ← of_outcome
       (search_workflow_prompt_core "실버~골드 사이 DP 5문제, 그리디 제외" 1);
     let query := "tier:s5..g5 tag:dp -tag:greedy" in
     res ← search_problems_core network query 1;
     mret ()).
End Demo.

(** The three requests [main] makes when nothing fails, in order. *)
Definition main_requests : list Request :=
  [ {| via := {| base_url := SOLVEDAC_API_BASE_URL;
                 headers := [("X-Solvedac-Language", "ko")];
                 timeout := 10;
                 follow_redirects := true |};
       path := "/user/show";
       params := [("handle", PyStr "kyungbaee")] |};
    {| via := {| base_url := SOLVEDAC_API_BASE_URL;
                 headers := [("X-Solvedac-Language", "ko")];
                 timeout := 10;
                 follow_redirects := true |};
       path := "/search/problem";
       params := [("query", PyStr "tier:s5..g5 tag:dp"); ("page", PyInt 1)] |};
    {| via := {| base_url := SOLVEDAC_API_BASE_URL;
                 headers := [("X-Solvedac-Language", "ko")];
                 timeout := 10;
                 follow_redirects := true |};
       path := "/search/problem";
       params := [("query", PyStr "tier:s5..g5 tag:dp -tag:greedy");
                  ("page", PyInt 1)] |} ].

(** ** Malformed search bodies *)

(** A search body that is no object, or whose [count] is invalid, or whose
    [items] is absent, is not a list, or is a list with an element that
    does not validate as a problem. *)
Definition search_json_invalid `{LaxMode} (body : pyobj) : Prop :=
  match body with
  | PyDict d =>
      field_invalid validate_int d "count"
      ∨ d !! "items" = None
      ∨ (∃ v, d !! "items" = Some v ∧ ∀ l, v ≠ PyList l)
      ∨ (∃ l v, d !! "items" = Some (PyList l) ∧ v ∈ l
                ∧ Problem.validate v = None)
  | _ => True
  end.

(** ** Fixtures for concrete runs *)

(** A search body whose second row is not an object. *)
Definition broken_search_dict : gmap string pyobj :=
  {[ "count" := PyInt 57;
     "items" := PyList [ PyDict {[ "problemId" := PyInt 1000;
                                   "titleKo" := PyStr "A+B";
                                   "level" := PyInt 1;
                                   "isSolvable" := PyBool true ]};
                         PyStr "oops" ] ]}.

(** A row whose title is a number. *)
Definition numbered_title_row : gmap string pyobj :=
  {[ "problemId" := PyInt 1000; "titleKo" := PyInt 7;
     "level" := PyInt 1; "isSolvable" := PyBool true ]}.

(** A remote side on which every request fails in transport. *)
Definition unreachable (detail : string) : list Request → Request → Reply :=
  λ _ _, TransportFailed detail.

(** A remote side that answers user lookups and searches separately. *)
Definition by_path (user_resp search_resp : Response)
    : list Request → Request → Reply :=
  λ _ req,
    if String.eqb (path req) "/user/show" then Responded user_resp
    else Responded search_resp.

(** A lax mode that converts nothing. *)
Definition no_coercion : LaxMode :=
  {| lax_int := λ _, None; lax_bool := λ _, None |}.

(** The client that [lifespan] installs, and the world it runs its body in. *)
Definition live_client : AsyncClient :=
  {| base_url := SOLVEDAC_API_BASE_URL;
     headers := [("X-Solvedac-Language", "ko")];
     timeout := 10;
     follow_redirects := true |}.

Definition live_world : World := (lifespan_enter initial_world).1.

(** A remote side that gives the same answer to every request. *)
Definition always (resp : Response) : list Request → Request → Reply :=
  λ _ _, Responded resp.

(** An answer with a status code and no JSON body. *)
Definition status_only (s : Z) : Response :=
  {| status_code := s; json := None |}.

(** A first page of search results with nothing on it. *)
Definition empty_page : Response :=
  {| status_code := 200;
     json := Some (PyDict {[ "count" := PyInt 0; "items" := PyList [] ]}) |}.

(** A user object as the remote side returns it, with a key the model
    does not know, and the same object with [tier] set to [null]. *)
Definition sample_user_dict : gmap string pyobj :=
  {[ "handle" := PyStr "kyungbaee"; "tier" := PyInt 15; "rating" := PyInt 1800;
     "solvedCount" := PyInt 700; "bio" := PyStr "hello" ]}.

Definition sample_user : UserShowResponse.t :=
  {| UserShowResponse.handle := "kyungbaee"; UserShowResponse.tier := 15;
     UserShowResponse.rating := 1800; UserShowResponse.solvedCount := 700 |}.




Definition answer_json (body : pyobj) : Response :=
  {| status_code := 200; json := Some body |}.

(** A page of two problems out of 57 matches; the second has a [null]
    title and a key the model does not know. *)
Definition sample_items : list pyobj :=
  [ PyDict {[ "problemId" := PyInt 1000; "titleKo" := PyStr "A+B";
              "level" := PyInt 1; "isSolvable" := PyBool true ]};
    PyDict {[ "problemId" := PyInt 1001; "titleKo" := PyNone;
              "level" := PyInt 2; "isSolvable" := PyBool false;
              "votedUserCount" := PyInt 3 ]} ].

Definition sample_search_dict : gmap string pyobj :=
  {[ "count" := PyInt 57; "items" := PyList sample_items ]}.

Definition sample_problems : list Problem.t :=
  [ {| Problem.problemId := 1000; Problem.titleKo := Some "A+B";
       Problem.level := 1; Problem.isSolvable := true |};
    {| Problem.problemId := 1001; Problem.titleKo := None;
       Problem.level := 2; Problem.isSolvable := false |} ].

(** The advice both transient failures end with: try again in a moment. *)
Definition retry_later : string := "잠시 후 다시 시도하세요.".

Lemma string_app_assoc (a b c : string) : (a +:+ b) +:+ c = a +:+ b +:+ c.
Proof.
  induction a as [|x a IH]; [reflexivity|].
  change (String x ((a +:+ b) +:+ c) = String x (a +:+ b +:+ c)).
  by rewrite IH.
Qed.

Lemma contains_here (before needle after : string) :
  contains (before +:+ needle +:+ after) needle.
Proof. by exists before, after. Qed.

Lemma contains_later (before hay needle : string) :
  contains hay needle → contains (before +:+ hay) needle.
Proof.
  intros (p & q & ->). exists (before +:+ p), q.
  by rewrite string_app_assoc.
Qed.

Section CoreFacts.
Context `{LaxMode}.
Variable network : list Request → Request → Reply.

(** Validation of a body either gives the model or raises the model's
    [ValidationError]; nothing else. *)
Lemma user_model_validate_cases (obj : pyobj) :
  (∃ u, UserShowResponse.model_validate obj = Ok u)
  ∨ UserShowResponse.model_validate obj
    = Raise (ValidationError "UserShowResponse").
Proof.
  destruct obj; simpl; auto.
  destruct (UserShowResponse.from_dict d); eauto.
Qed.

Lemma search_model_validate_cases (obj : pyobj) :
  (∃ r, ProblemSearchResponse.model_validate obj = Ok r)
  ∨ ProblemSearchResponse.model_validate obj
    = Raise (ValidationError "ProblemSearchResponse").
Proof.
  destruct obj; simpl; auto.
  destruct (ProblemSearchResponse.from_dict d); eauto.
Qed.

Ltac run :=
  unfold get_user_info_core, search_problems_core, try_except, raise_for_status,
    Response_json, AsyncClient_get, state_get_http_client, of_outcome, raise,
    mbind, M_bind, bind, mret, M_ret, ret; simpl.

Lemma get_user_info_core_inactive w handle :
  http_client w = None →
  get_user_info_core network handle w
  = (w, Raise (RuntimeError "HTTP Client is not available.")).
Proof. intros Hc. run. by rewrite Hc. Qed.

Lemma search_problems_core_inactive w query page :
  http_client w = None →
  search_problems_core network query page w
  = (w, Raise (RuntimeError "HTTP Client is not available.")).
Proof. intros Hc. run. by rewrite Hc. Qed.

(** With a live client exactly one request goes out, whatever comes back. *)
Lemma get_user_info_core_sends w c handle :
  http_client w = Some c →
  (get_user_info_core network handle w).1 = after_send w (user_show_request c handle).
Proof.
  intros Hc. run. rewrite Hc. simpl.
  fold (user_show_request c handle).
  destruct (network _ _) as [resp|detail]; [|reflexivity]. simpl.
  case_bool_decide; simpl.
  - destruct (json resp) as [body|]; [|reflexivity]. simpl.
    destruct (UserShowResponse.model_validate body); repeat case_match; reflexivity.
  - repeat case_match; reflexivity.
Qed.

Lemma search_problems_core_sends w c query page :
  http_client w = Some c →
  (search_problems_core network query page w).1
  = after_send w (search_problem_request c query page).
Proof.
  intros Hc. run. rewrite Hc. simpl.
  fold (search_problem_request c query page).
  destruct (network _ _) as [resp|detail]; [|reflexivity]. simpl.
  case_bool_decide; simpl.
  - destruct (json resp) as [body|]; [|reflexivity]. simpl.
    destruct (ProblemSearchResponse.model_validate body); repeat case_match; reflexivity.
  - repeat case_match; reflexivity.
Qed.

(** A 2xx answer with a JSON body: the outcome is the model's validation. *)
Lemma get_user_info_core_success w c handle resp body :
  http_client w = Some c →
  network (sent w) (user_show_request c handle) = Responded resp →
  200 ≤ status_code resp ≤ 299 →
  json resp = Some body →
  get_user_info_core network handle w
  = (after_send w (user_show_request c handle),
     UserShowResponse.model_validate body).
Proof.
  intros Hc Hnet Hs Hj. run. rewrite Hc. simpl.
  fold (user_show_request c handle). rewrite Hnet. simpl.
  rewrite bool_decide_true by done. simpl. rewrite Hj. simpl.
  destruct (user_model_validate_cases body) as [[u ->]| ->]; reflexivity.
Qed.

Lemma search_problems_core_success w c query page resp body :
  http_client w = Some c →
  network (sent w) (search_problem_request c query page) = Responded resp →
  200 ≤ status_code resp ≤ 299 →
  json resp = Some body →
  search_problems_core network query page w
  = (after_send w (search_problem_request c query page),
     ProblemSearchResponse.model_validate body).
Proof.
  intros Hc Hnet Hs Hj. run. rewrite Hc. simpl.
  fold (search_problem_request c query page). rewrite Hnet. simpl.
  rewrite bool_decide_true by done. simpl. rewrite Hj. simpl.
  destruct (search_model_validate_cases body) as [[u ->]| ->]; reflexivity.
Qed.

(** A non-2xx answer reaches the [except httpx.HTTPStatusError] clause. *)
Lemma get_user_info_core_status w c handle resp :
  http_client w = Some c →
  network (sent w) (user_show_request c handle) = Responded resp →
  ¬ (200 ≤ status_code resp ≤ 299) →
  get_user_info_core network handle w
  = (after_send w (user_show_request c handle),
     Raise
       (let s := status_code resp in
        if s =? 404 then
          ValueError ("사용자 핸들 '" +:+ handle +:+ "'을(를) 찾을 수 없습니다.")
        else if s =? 429 then
          RuntimeError "요청이 많습니다(429). 잠시 후 다시 시도하세요."
        else if (500 <=? s) && (s <? 600) then
          RuntimeError "solved.ac 서버 오류가 발생했습니다. 잠시 후 다시 시도하세요."
        else HTTPStatusError resp)).
Proof.
  intros Hc Hnet Hs. run. rewrite Hc. simpl.
  fold (user_show_request c handle). rewrite Hnet. simpl.
  rewrite bool_decide_false by done. simpl.
  repeat case_match; reflexivity.
Qed.

Lemma search_problems_core_status w c query page resp :
  http_client w = Some c →
  network (sent w) (search_problem_request c query page) = Responded resp →
  ¬ (200 ≤ status_code resp ≤ 299) →
  search_problems_core network query page w
  = (after_send w (search_problem_request c query page),
     Raise
       (let s := status_code resp in
        if s =? 429 then
          RuntimeError "요청이 많습니다(429). 잠시 후 다시 시도하세요."
        else if (500 <=? s) && (s <? 600) then
          RuntimeError "solved.ac 서버 오류가 발생했습니다. 잠시 후 다시 시도하세요."
        else HTTPStatusError resp)).
Proof.
  intros Hc Hnet Hs. run. rewrite Hc. simpl.
  fold (search_problem_request c query page). rewrite Hnet. simpl.
  rewrite bool_decide_false by done. simpl.
  repeat case_match; reflexivity.
Qed.
End CoreFacts.

(** ** The client lifecycle *)

Lemma initial_world_inactive : http_client initial_world = None.
Proof. reflexivity. Qed.

Lemma lifespan_enter_active w :
  http_client (lifespan_enter w).1 = Some live_client
  ∧ sent (lifespan_enter w).1 = sent w.
Proof. done. Qed.

Lemma lifespan_exit_inactive w :
  http_client (lifespan_exit w).1 = None ∧ sent (lifespan_exit w).1 = sent w.
Proof. unfold lifespan_exit. by destruct (http_client w). Qed.

(** Whatever the body does, and whether it returns or raises, the slot is
    empty again once [lifespan] is left. *)
Lemma lifespan_leaves_inactive {A} (body : M A) w :
  http_client (lifespan body w).1 = None.
Proof. unfold lifespan. simpl. by destruct (body _). Qed.

Section ErrorTranslation.
Context `{LaxMode}.
Variable network : list Request → Request → Reply.

(** C2. A core operation (fetch-user, search-problems) that runs while
    [state["http_client"]] is empty, which is the case before [lifespan]
    is entered and after it is left, raises the ClientUnavailable failure
    at once.  The world it returns is the world it got, so no request
    was handed to the transport. *)
Theorem core_operations_need_active_client w handle query page :
  http_client w = None →
  get_user_info_core network handle w = (w, Raise ClientUnavailable)
  ∧ search_problems_core network query page w = (w, Raise ClientUnavailable).
Proof.
  intros Hc. split.
  - by apply get_user_info_core_inactive.
  - by apply search_problems_core_inactive.
Qed.

(** C3. When the lookup of a handle is answered with status 404,
    fetch-user raises the NotFound failure (a [ValueError]), and its
    message contains the handle. *)
Theorem get_user_info_404_names_handle w c handle resp :
  http_client w = Some c →
  network (sent w) (user_show_request c handle) = Responded resp →
  status_code resp = 404 →
  get_user_info_core network handle w
  = (after_send w (user_show_request c handle), Raise (NotFound handle))
  ∧ ∃ msg, NotFound handle = ValueError msg ∧ contains msg handle.
Proof.
  intros Hc Hnet Hs. split.
  - rewrite (get_user_info_core_status _ w c handle resp) by (done || lia).
    by rewrite Hs.
  - eexists. split; [reflexivity|]. apply contains_here.
Qed.

(** C4. For fetch-user and for search-problems alike, an answer with
    status 429 raises the RateLimited failure and an answer with a status
    in 500..599 raises the RemoteUnavailable failure; the two operations
    raise the very same exceptions.  Both messages end with the advice to
    try again in a moment, which marks the condition as transient. *)
Theorem transient_statuses_same_for_both w c handle query page :
  http_client w = Some c →
  (∀ ru, network (sent w) (user_show_request c handle) = Responded ru →
     (status_code ru = 429 →
        (get_user_info_core network handle w).2 = Raise RateLimited)
     ∧ (500 ≤ status_code ru ≤ 599 →
          (get_user_info_core network handle w).2 = Raise RemoteUnavailable))
  ∧ (∀ rs, network (sent w) (search_problem_request c query page)
           = Responded rs →
       (status_code rs = 429 →
          (search_problems_core network query page w).2 = Raise RateLimited)
       ∧ (500 ≤ status_code rs ≤ 599 →
            (search_problems_core network query page w).2
            = Raise RemoteUnavailable))
  ∧ (∃ msg, RateLimited = RuntimeError msg ∧ contains msg retry_later)
  ∧ (∃ msg, RemoteUnavailable = RuntimeError msg ∧ contains msg retry_later).
Proof.
  intros Hc. split_and!.
  - intros ru Hu. split; intros E.
    + rewrite (get_user_info_core_status _ w c handle ru) by (done || lia).
      by rewrite E.
    + rewrite (get_user_info_core_status _ w c handle ru) by (done || lia).
      simpl. f_equal.
      destruct (status_code ru =? 404) eqn:?; [lia|].
      destruct (status_code ru =? 429) eqn:?; [lia|].
      destruct (500 <=? status_code ru) eqn:?; [|lia].
      destruct (status_code ru <? 600) eqn:?; [|lia].
      reflexivity.
  - intros rs Hs. split; intros E.
    + rewrite (search_problems_core_status _ w c query page rs)
        by (done || lia).
      by rewrite E.
    + rewrite (search_problems_core_status _ w c query page rs)
        by (done || lia).
      simpl. f_equal.
      destruct (status_code rs =? 429) eqn:?; [lia|].
      destruct (500 <=? status_code rs) eqn:?; [|lia].
      destruct (status_code rs <? 600) eqn:?; [|lia].
      reflexivity.
  - eexists. split; [reflexivity|].
    by exists "요청이 많습니다(429). ", "".
  - eexists. split; [reflexivity|].
    by exists "solved.ac 서버 오류가 발생했습니다. ", "".
Qed.

(** C5. search-problems has no branch for 404: an answer with status 404,
    like every other 4xx status except 429, raises the UnexpectedStatus
    failure, the [HTTPStatusError] re-raised with the response and so
    the status code it came with, and never the NotFound failure. *)
Theorem search_problems_4xx_passes_through w c query page resp :
  http_client w = Some c →
  network (sent w) (search_problem_request c query page) = Responded resp →
  400 ≤ status_code resp ≤ 499 →
  status_code resp ≠ 429 →
  search_problems_core network query page w
  = (after_send w (search_problem_request c query page),
     Raise (UnexpectedStatus resp))
  ∧ (∀ h, (search_problems_core network query page w).2 ≠ Raise (NotFound h)).
Proof.
  intros Hc Hnet Hs Hn.
  rewrite (search_problems_core_status _ w c query page resp) by (done || lia).
  simpl.
  destruct (status_code resp =? 429) eqn:?; [lia|].
  destruct (500 <=? status_code resp) eqn:?; [lia|].
  split; [reflexivity|]. intros h. discriminate.
Qed.
End ErrorTranslation.

Section ResponseShaping.
Context `{LaxMode}.
Variable network : list Request → Request → Reply.


Lemma field_invalid_required {A} (validate : pyobj → option A) d key :
  field_invalid validate d key → required validate d key = None.
Proof.
  unfold required. intros [-> | (v & -> & Hv)]; [reflexivity | exact Hv].
Qed.





Lemma problem_json_validates v p :
  problem_json v p → Problem.validate v = Some p.
Proof.
  intros (d & -> & Hi & Ht & Hl & Hs). simpl.
  unfold Problem.from_dict, required, optional.
  rewrite Hi, Hl, Hs. simpl.
  destruct p as [pid [title|] lvl solv]; simpl in *.
  - by rewrite Ht.
  - by destruct Ht as [-> | ->].
Qed.

Lemma problems_json_validate l ps :
  Forall2 problem_json l ps → mapM Problem.validate l = Some ps.
Proof.
  intros Hl. apply mapM_Some.
  eapply Forall2_impl; [exact Hl|]. apply problem_json_validates.
Qed.

(** C8. search-problems answered with status 200 and a body
    [{count, items}] whose items are well-formed problems: the result's
    [count] is the body's [count] (whatever the number of items), and its
    [items] are the decoded problems, as many as the JSON array has and
    position by position in the array's order. *)
Theorem search_problems_200_keeps_count_and_order
    w c query page resp d n l ps :
  http_client w = Some c →
  network (sent w) (search_problem_request c query page) = Responded resp →
  status_code resp = 200 →
  json resp = Some (PyDict d) →
  d !! "count" = Some (PyInt n) →
  d !! "items" = Some (PyList l) →
  Forall2 problem_json l ps →
  ∃ r,
    search_problems_core network query page w
    = (after_send w (search_problem_request c query page), Ok r)
    ∧ ProblemSearchResponse.count r = n
    ∧ length (ProblemSearchResponse.items r) = length l
    ∧ ∀ (i : nat) v, l !! i = Some v →
        ∃ p, ProblemSearchResponse.items r !! i = Some p ∧ problem_json v p.
Proof.
  intros Hc Hnet Hs Hj Hn Hl Hps.
  exists {| ProblemSearchResponse.count := n; ProblemSearchResponse.items := ps |}.
  split; [|split; [reflexivity|split]].
  - rewrite (search_problems_core_success _ w c query page resp (PyDict d))
      by (done || lia).
    simpl. unfold ProblemSearchResponse.from_dict, required.
    rewrite Hn, Hl. simpl. by rewrite (problems_json_validate l ps).
  - simpl. symmetry. by eapply Forall2_length.
  - intros i v Hi. simpl.
    destruct (Forall2_lookup_l _ _ _ _ _ Hps Hi) as (p & Hp & Hvp). eauto.
Qed.
End ResponseShaping.

(** ** The prompt builder *)

Example str_of_int_decimal :
  str_of_int 1 = "1" ∧ str_of_int 20 = "20" ∧ str_of_int 0 = "0"
  ∧ str_of_int (-7) = "-7".
Proof. repeat split; reflexivity. Qed.

(** Distinct integers have distinct renderings. *)
Lemma str_of_int_inj (m n : Z) : str_of_int m = str_of_int n → m = n.
Proof. apply pretty_Z_inj. Qed.

Lemma digit_of_pretty_N_char (d : N) :
  (d < 10)%N → digit_of_char (pretty_N_char d) = Some (Z.of_N d).
Proof.
  intros Hd.
  assert (d = 0 ∨ d = 1 ∨ d = 2 ∨ d = 3 ∨ d = 4 ∨ d = 5 ∨ d = 6 ∨ d = 7
          ∨ d = 8 ∨ d = 9)%N as Hcases by lia.
  repeat (destruct Hcases as [-> | Hcases]; [reflexivity|]).
  by subst.
Qed.

(** Reading the digits that [pretty_N_go x] puts in front of [s]. *)
Lemma digits_value_pretty_N_go (x : N) (s : string) (acc : Z) :
  ∃ k : Z, 0 ≤ k
    ∧ digits_value acc (pretty_N_go x s)
      = digits_value (acc * 10 ^ k + Z.of_N x) s.
Proof.
  revert s. induction (N.lt_wf_0 x) as [x _ IH]; intros s.
  assert (x = 0 ∨ 0 < x)%N as [->|Hx] by lia.
  - exists 0. split; [done|]. rewrite pretty_N_go_0. f_equal. lia.
  - rewrite pretty_N_go_step by done.
    destruct (IH (x `div` 10)%N ltac:(by apply N.div_lt)
                (String (pretty_N_char (x `mod` 10)) s)) as (k & Hk & ->).
    exists (k + 1). split; [lia|]. simpl.
    rewrite digit_of_pretty_N_char by (apply N.mod_lt; lia).
    f_equal. rewrite Z.pow_add_r, Z.pow_1_r by lia.
    rewrite N2Z.inj_div, N2Z.inj_mod. change (Z.of_N 10) with 10.
    pose proof (Z.div_mod (Z.of_N x) 10 ltac:(lia)) as Hdm.
    set (q := Z.of_N x `div` 10) in *. set (r := Z.of_N x `mod` 10) in *.
    rewrite Hdm. ring.
Qed.

Lemma leading_nonzero_pretty_N_go (x : N) (s : string) :
  (0 < x)%N → leading_nonzero (pretty_N_go x s) = true.
Proof.
  revert s. induction (N.lt_wf_0 x) as [x _ IH]; intros s Hx.
  rewrite pretty_N_go_step by done.
  destruct (N.eq_0_gt_0_cases (x `div` 10)) as [Hq|Hq].
  - rewrite Hq, pretty_N_go_0. simpl.
    rewrite digit_of_pretty_N_char by (apply N.mod_lt; lia).
    apply Z.ltb_lt.
    pose proof (N.div_mod x 10 ltac:(lia)) as Hdm. rewrite Hq in Hdm.
    set (r := (x `mod` 10)%N) in *. lia.
  - apply IH; [by apply N.div_lt | done].
Qed.

(** The numeral that [str] produces reads back as the integer it was
    produced from, and it is in canonical form. *)
Lemma str_of_int_decimal_numeral (n : Z) : decimal_numeral (str_of_int n) n.
Proof.
  unfold str_of_int, pretty, pretty_Z. destruct n as [|p|p].
  - split; [reflexivity | by left].
  - unfold pretty, pretty_positive, pretty, pretty_N.
    destruct (decide (N.pos p = 0%N)); [done|].
    pose proof (leading_nonzero_pretty_N_go (N.pos p) "" ltac:(lia)) as Hl.
    destruct (digits_value_pretty_N_go (N.pos p) "" 0) as (k & _ & Hv).
    split; [|by right; left].
    destruct (pretty_N_go (N.pos p) "") as [|c rest] eqn:E; [done|].
    unfold int_of_decimal.
    destruct (Ascii.eqb c minus_sign) eqn:Hc.
    { apply Ascii.eqb_eq in Hc as ->. done. }
    rewrite Hv. simpl. f_equal.
  - unfold pretty, pretty_positive, pretty, pretty_N.
    destruct (decide (N.pos p = 0%N)); [done|].
    pose proof (leading_nonzero_pretty_N_go (N.pos p) "" ltac:(lia)) as Hl.
    destruct (digits_value_pretty_N_go (N.pos p) "" 0) as (k & _ & Hv).
    change ("-" +:+ pretty_N_go (N.pos p) "")
      with (String minus_sign (pretty_N_go (N.pos p) "")).
    split; [|right; right; by eexists].
    unfold int_of_decimal. rewrite Ascii.eqb_refl.
    destruct (pretty_N_go (N.pos p) "") as [|c rest] eqn:E; [done|].
    rewrite Hv. simpl. f_equal.
Qed.

Lemma int_to_str_within_limit (n : Z) :
  Z.abs n < 10 ^ int_max_str_digits → int_to_str n = Ok (str_of_int n).
Proof.
  unfold int_to_str. generalize (10 ^ int_max_str_digits). intros limit Hn.
  destruct (Z.leb_spec limit (Z.abs n)); [lia | reflexivity].
Qed.

Lemma int_to_str_beyond_limit (n : Z) :
  10 ^ int_max_str_digits ≤ Z.abs n → ∃ msg, int_to_str n = Raise (ValueError msg).
Proof.
  unfold int_to_str. generalize (10 ^ int_max_str_digits). intros limit Hn.
  destruct (Z.leb_spec limit (Z.abs n)); [by eexists | lia].
Qed.

Lemma int_to_str_ok (n : Z) (s : string) :
  int_to_str n = Ok s → s = str_of_int n.
Proof.
  unfold int_to_str. destruct (_ <=? _); [discriminate|]. by intros [= <-].
Qed.

(** C7, as the code has it.  The prompt builder is a function of its two
    arguments alone (it never touches the world, so it is pure and
    deterministic).  For every request text and every page from 1 on that
    has at most 4300 decimal digits it returns exactly two messages, the
    first with role assistant and the second with role user, and the text
    of the second contains the request text and the decimal numeral of
    the page. *)
Theorem search_workflow_prompt_core_two_messages natural_request page :
  1 ≤ page →
  page < 10 ^ int_max_str_digits →
  ∃ sys usr numeral,
    search_workflow_prompt_core natural_request page = Ok [sys; usr]
    ∧ role sys = assistant
    ∧ role usr = user
    ∧ contains (text (content usr)) natural_request
    ∧ decimal_numeral numeral page
    ∧ contains (text (content usr)) numeral.
Proof.
  intros H1 Hlimit. unfold search_workflow_prompt_core.
  rewrite int_to_str_within_limit by lia.
  eexists _, _, (str_of_int page). split; [reflexivity|]. simpl.
  split_and!; try reflexivity.
  - apply contains_here.
  - apply str_of_int_decimal_numeral.
  - do 3 apply contains_later. apply contains_here.
Qed.

(** Beyond the limit the interpolation of the page raises, and with it
    the builder: no messages are returned. *)
Lemma search_workflow_prompt_core_beyond_limit natural_request page :
  10 ^ int_max_str_digits ≤ Z.abs page →
  ∃ msg, search_workflow_prompt_core natural_request page
         = Raise (ValueError msg).
Proof.
  intros Hp. unfold search_workflow_prompt_core.
  destruct (int_to_str_beyond_limit page Hp) as [msg ->]. by exists msg.
Qed.

Example search_workflow_prompt_core_sample :
  ∃ sys usr,
    search_workflow_prompt_core "실버~골드 사이 DP 5문제" 1 = Ok [sys; usr]
    ∧ role sys = assistant ∧ role usr = user
    ∧ contains (text (content usr)) "실버~골드 사이 DP 5문제"
    ∧ contains (text (content usr)) "1".
Proof.
  unfold search_workflow_prompt_core.
  rewrite int_to_str_within_limit by (by vm_compute).
  eexists _, _. split; [reflexivity|]. simpl. repeat split.
  - apply contains_here.
  - do 3 apply contains_later. apply contains_here.
Qed.

(** C9. The function registered as the prompt and the directly callable
    prompt builder return the same message sequence for every request
    text and page (and where the one raises, the other raises the same). *)
Theorem search_workflow_prompt_same_as_core natural_request page :
  search_workflow_prompt natural_request page
  = search_workflow_prompt_core natural_request page.
Proof. reflexivity. Qed.

(** ** The bindings *)

Section BindingFacts.
Context `{LaxMode}.
Variable network : list Request → Request → Reply.

(** C10. The search resource does not depend on its stub segment: for
    every query, page and world, two stub values give the same result,
    success or failure, and the same world.  This holds for the function
    as written and for the registered resource, where the stub may also
    be left out. *)
Theorem search_resource_ignores_stub query page stub1 stub2 w :
  search_problems network query page stub1 w
  = search_problems network query page stub2 w
  ∧ ∀ q p s1 s2,
      resource_problems_search network q p s1 w
      = resource_problems_search network q p s2 w.
Proof.
  split; [reflexivity|].
  intros q p [s1|] [s2|]; reflexivity.
Qed.

(** C1, as the code has it.  For every query and every page below 1,
    the registered search tool and the registered search resource, whose
    [page] parameter is declared with [ge=1], raise the InvalidArgument
    failure before the function behind them runs: the world is returned
    as it was, so no request was handed to the transport. *)
Theorem page_below_one_rejected_by_bindings query page stub w :
  page < 1 →
  solvedac_search_problems network query (Some page) w
  = (w, Raise (InvalidArgument "solvedac_search_problems"))
  ∧ resource_problems_search network query (Some page) stub w
    = (w, Raise (InvalidArgument "solvedac://problems/search/{stub}")).
Proof.
  intros Hp.
  unfold solvedac_search_problems, resource_problems_search. simpl.
  rewrite bool_decide_false by lia.
  split; destruct query; reflexivity.
Qed.

(** With a page from 1 on the registered tool is the core operation. *)
Lemma solvedac_search_problems_runs_core query page w :
  1 ≤ page →
  solvedac_search_problems network (Some query) (Some page) w
  = search_problems_core network query page w.
Proof.
  intros Hp. unfold solvedac_search_problems. simpl.
  by rewrite bool_decide_true.
Qed.
End BindingFacts.

(** ** Concrete runs *)

(** C1 as stated fails for the core operation: it has no check on [page].
    Called with page 0 on a live client it sends the request, page 0
    included, and returns what the remote side answered. *)
Lemma search_problems_core_page_zero_is_sent :
  let run :=
    @search_problems_core no_coercion (always empty_page)
      "tier:g5..p5 tag:dfs" 0 live_world in
  sent run.1 = [search_problem_request live_client "tier:g5..p5 tag:dfs" 0]
  ∧ run.2 = Ok {| ProblemSearchResponse.count := 0;
                  ProblemSearchResponse.items := [] |}
  ∧ ∀ capability, run.2 ≠ Raise (InvalidArgument capability).
Proof.
  assert (E :
    @search_problems_core no_coercion (always empty_page)
      "tier:g5..p5 tag:dfs" 0 live_world
    = (after_send live_world
         (search_problem_request live_client "tier:g5..p5 tag:dfs" 0),
       Ok {| ProblemSearchResponse.count := 0;
             ProblemSearchResponse.items := [] |})).
  { rewrite (@search_problems_core_success no_coercion (always empty_page)
               live_world live_client "tier:g5..p5 tag:dfs" 0 empty_page
               (PyDict {[ "count" := PyInt 0; "items" := PyList [] ]}));
      [reflexivity|reflexivity|reflexivity|simpl; lia|reflexivity]. }
  simpl. rewrite E. simpl. repeat split. intros capability. discriminate.
Qed.

Lemma page_below_one_rejected_by_bindings_witness :
  0 < 1
  ∧ @solvedac_search_problems no_coercion (always empty_page)
      (Some "tier:g5..p5 tag:dfs") (Some 0) live_world
    = (live_world, Raise (InvalidArgument "solvedac_search_problems"))
  ∧ @resource_problems_search no_coercion (always empty_page)
      (Some "tier:g5..p5 tag:dfs") (Some 0) None live_world
    = (live_world, Raise (InvalidArgument "solvedac://problems/search/{stub}")).
Proof.
  split; [lia|].
  apply (@page_below_one_rejected_by_bindings no_coercion (always empty_page)
           (Some "tier:g5..p5 tag:dfs") 0 None live_world).
  lia.
Defined.

Lemma core_operations_need_active_client_witness :
  http_client initial_world = None
  ∧ @get_user_info_core no_coercion (always empty_page) "kyungbaee" initial_world
    = (initial_world, Raise ClientUnavailable)
  ∧ @search_problems_core no_coercion (always empty_page) "tag:dp" 1 initial_world
    = (initial_world, Raise ClientUnavailable).
Proof.
  split; [reflexivity|].
  apply (@core_operations_need_active_client no_coercion (always empty_page)
           initial_world "kyungbaee" "tag:dp" 1).
  reflexivity.
Defined.

(** The same after a whole activation window: a call made once [lifespan]
    has been left fails and adds nothing to what was sent inside it. *)
Example core_operations_after_lifespan :
  let w := (lifespan (@search_problems_core no_coercion (always empty_page)
                        "tag:dp" 1) initial_world).1 in
  sent w = [search_problem_request live_client "tag:dp" 1]
  ∧ @get_user_info_core no_coercion (always empty_page) "kyungbaee" w
    = (w, Raise ClientUnavailable).
Proof. split; reflexivity. Qed.

Lemma get_user_info_404_names_handle_witness :
  @get_user_info_core no_coercion (always (status_only 404))
    "no_such_user_xyz" live_world
  = (after_send live_world (user_show_request live_client "no_such_user_xyz"),
     Raise (NotFound "no_such_user_xyz"))
  ∧ ∃ msg, NotFound "no_such_user_xyz" = ValueError msg
           ∧ contains msg "no_such_user_xyz".
Proof.
  apply (@get_user_info_404_names_handle no_coercion (always (status_only 404))
           live_world live_client "no_such_user_xyz" (status_only 404));
    reflexivity.
Defined.

Lemma transient_statuses_same_for_both_witness :
  ((@get_user_info_core no_coercion (always (status_only 429))
      "kyungbaee" live_world).2 = Raise RateLimited
   ∧ (@search_problems_core no_coercion (always (status_only 429))
        "tag:dp" 1 live_world).2 = Raise RateLimited)
  ∧ ((@get_user_info_core no_coercion (always (status_only 503))
        "kyungbaee" live_world).2 = Raise RemoteUnavailable
     ∧ (@search_problems_core no_coercion (always (status_only 503))
          "tag:dp" 1 live_world).2 = Raise RemoteUnavailable).
Proof.
  split.
  - destruct (@transient_statuses_same_for_both no_coercion
                (always (status_only 429)) live_world live_client
                "kyungbaee" "tag:dp" 1 eq_refl)
      as (Hu & Hs & _).
    split; [apply (Hu (status_only 429) eq_refl)
           |apply (Hs (status_only 429) eq_refl)]; reflexivity.
  - destruct (@transient_statuses_same_for_both no_coercion
                (always (status_only 503)) live_world live_client
                "kyungbaee" "tag:dp" 1 eq_refl)
      as (Hu & Hs & _).
    split; [apply (Hu (status_only 503) eq_refl)
           |apply (Hs (status_only 503) eq_refl)]; simpl; lia.
Defined.

Lemma search_problems_4xx_passes_through_witness :
  @search_problems_core no_coercion (always (status_only 404))
    "tag:dp" 1 live_world
  = (after_send live_world (search_problem_request live_client "tag:dp" 1),
     Raise (UnexpectedStatus (status_only 404)))
  ∧ ∀ h, (@search_problems_core no_coercion (always (status_only 404))
            "tag:dp" 1 live_world).2 ≠ Raise (NotFound h).
Proof.
  apply (@search_problems_4xx_passes_through no_coercion
           (always (status_only 404)) live_world live_client "tag:dp" 1
           (status_only 404));
    [reflexivity | reflexivity | simpl; lia | simpl; lia].
Defined.



(** C7 as stated fails for a page of 4301 digits: the interpolation of
    the page raises and the builder returns no messages. *)
Lemma search_workflow_prompt_core_refuses_huge_page :
  1 ≤ 10 ^ 4300
  ∧ ∃ msg, search_workflow_prompt_core "DP" (10 ^ 4300)
           = Raise (ValueError msg).
Proof.
  split; [by vm_compute|]. eexists. vm_compute. reflexivity.
Qed.

Lemma search_workflow_prompt_core_two_messages_witness :
  ∃ sys usr numeral,
    search_workflow_prompt_core "실버~골드 사이 DP 5문제" 1 = Ok [sys; usr]
    ∧ role sys = assistant
    ∧ role usr = user
    ∧ contains (text (content usr)) "실버~골드 사이 DP 5문제"
    ∧ decimal_numeral numeral 1
    ∧ contains (text (content usr)) numeral.
Proof.
  apply (search_workflow_prompt_core_two_messages "실버~골드 사이 DP 5문제" 1);
    [lia | by vm_compute].
Defined.

Lemma search_problems_200_keeps_count_and_order_witness :
  ∃ r,
    @search_problems_core no_coercion
      (always (answer_json (PyDict sample_search_dict))) "tag:dp" 1 live_world
    = (after_send live_world (search_problem_request live_client "tag:dp" 1),
       Ok r)
    ∧ ProblemSearchResponse.count r = 57
    ∧ length (ProblemSearchResponse.items r) = length sample_items
    ∧ ∀ (i : nat) v, sample_items !! i = Some v →
        ∃ p, ProblemSearchResponse.items r !! i = Some p ∧ problem_json v p.
Proof.
  apply (@search_problems_200_keeps_count_and_order no_coercion
           (always (answer_json (PyDict sample_search_dict)))
           live_world live_client "tag:dp" 1
           (answer_json (PyDict sample_search_dict)) sample_search_dict
           57 sample_items sample_problems
           eq_refl eq_refl eq_refl eq_refl eq_refl eq_refl).
  repeat constructor.
  - eexists. split; [reflexivity|]. repeat split; reflexivity.
  - eexists. split; [reflexivity|]. repeat split; try reflexivity.
    right. reflexivity.
Defined.

(** * Further properties of the core operations *)

Lemma string_app_nil_r (a : string) : a +:+ "" = a.
Proof.
  induction a as [|x a IH]; [reflexivity|].
  change (String x (a +:+ "") = String x a). by rewrite IH.
Qed.

Lemma contains_at_end (before needle : string) :
  contains (before +:+ needle) needle.
Proof. exists before, "". by rewrite string_app_nil_r. Qed.

Section CoreOutcomes.
Context `{LaxMode}.
Variable network : list Request → Request → Reply.

Ltac run_core :=
  unfold get_user_info_core, search_problems_core, try_except, raise_for_status,
    Response_json, AsyncClient_get, state_get_http_client, of_outcome, raise,
    mbind, M_bind, bind, mret, M_ret, ret; simpl.

Lemma get_user_info_core_transport w c handle detail :
  http_client w = Some c →
  network (sent w) (user_show_request c handle) = TransportFailed detail →
  get_user_info_core network handle w
  = (after_send w (user_show_request c handle),
     Raise (RuntimeError
       ("네트워크 오류로 사용자 정보를 가져오지 못했습니다: " +:+ detail))).
Proof.
  intros Hc Hnet. run_core. rewrite Hc. simpl.
  fold (user_show_request c handle). by rewrite Hnet.
Qed.

Lemma search_problems_core_transport w c query page detail :
  http_client w = Some c →
  network (sent w) (search_problem_request c query page) = TransportFailed detail →
  search_problems_core network query page w
  = (after_send w (search_problem_request c query page),
     Raise (RuntimeError
       ("네트워크 오류로 문제 검색에 실패했습니다: " +:+ detail))).
Proof.
  intros Hc Hnet. run_core. rewrite Hc. simpl.
  fold (search_problem_request c query page). by rewrite Hnet.
Qed.

Lemma get_user_info_core_undecodable w c handle resp :
  http_client w = Some c →
  network (sent w) (user_show_request c handle) = Responded resp →
  200 ≤ status_code resp ≤ 299 →
  json resp = None →
  get_user_info_core network handle w
  = (after_send w (user_show_request c handle), Raise JSONDecodeError).
Proof.
  intros Hc Hnet Hs Hj. run_core. rewrite Hc. simpl.
  fold (user_show_request c handle). rewrite Hnet. simpl.
  rewrite bool_decide_true by done. simpl. by rewrite Hj.
Qed.

Lemma search_problems_core_undecodable w c query page resp :
  http_client w = Some c →
  network (sent w) (search_problem_request c query page) = Responded resp →
  200 ≤ status_code resp ≤ 299 →
  json resp = None →
  search_problems_core network query page w
  = (after_send w (search_problem_request c query page), Raise JSONDecodeError).
Proof.
  intros Hc Hnet Hs Hj. run_core. rewrite Hc. simpl.
  fold (search_problem_request c query page). rewrite Hnet. simpl.
  rewrite bool_decide_true by done. simpl. by rewrite Hj.
Qed.

(** X1. With a client in the slot, each core operation hands exactly one
    request to the transport, whatever comes back (a result, a bad status,
    a malformed body, a transport failure): the user lookup to
    [/user/show] with the handle, the search to [/search/problem] with the
    query and the page as given.  The client slot is left as it was. *)
Theorem core_operations_send_exactly_once w c handle query page :
  http_client w = Some c →
  (get_user_info_core network handle w).1
  = {| http_client := Some c;
       sent := sent w ++ [ {| via := c; path := "/user/show";
                              params := [("handle", PyStr handle)] |} ] |}
  ∧ (search_problems_core network query page w).1
    = {| http_client := Some c;
         sent := sent w ++ [ {| via := c; path := "/search/problem";
                                params := [("query", PyStr query);
                                           ("page", PyInt page)] |} ] |}.
Proof.
  intros Hc. split.
  - rewrite (get_user_info_core_sends _ w c) by done.
    unfold after_send. by rewrite Hc.
  - rewrite (search_problems_core_sends _ w c) by done.
    unfold after_send. by rewrite Hc.
Qed.

(** X2. A transport failure ([httpx.RequestError]) never leaves a core
    operation as it is: each wraps it in a [RuntimeError] of its own, a
    fixed text naming what failed followed by the text of the failure. *)
Theorem transport_failures_are_wrapped w c handle query page :
  http_client w = Some c →
  (∀ du, network (sent w) (user_show_request c handle) = TransportFailed du →
     ∃ msg, (get_user_info_core network handle w).2 = Raise (RuntimeError msg)
            ∧ msg = "네트워크 오류로 사용자 정보를 가져오지 못했습니다: " +:+ du
            ∧ contains msg du)
  ∧ (∀ ds, network (sent w) (search_problem_request c query page)
           = TransportFailed ds →
       ∃ msg, (search_problems_core network query page w).2
              = Raise (RuntimeError msg)
              ∧ msg = "네트워크 오류로 문제 검색에 실패했습니다: " +:+ ds
              ∧ contains msg ds).
Proof.
  intros Hc. split.
  - intros du Hu. eexists. split; [|split; [reflexivity|]].
    + by rewrite (get_user_info_core_transport w c handle du).
    + apply contains_at_end.
  - intros ds Hs. eexists. split; [|split; [reflexivity|]].
    + by rewrite (search_problems_core_transport w c query page ds).
    + apply contains_at_end.
Qed.

(** X3. fetch-user translates three kinds of status only.  An answer
    outside 2xx whose status is neither 404 nor 429 nor in 500..599 (400,
    401, 403, a redirect that was not followed, ...) leaves the operation
    as the [HTTPStatusError] that [raise_for_status] raised, with the
    response it came with. *)
Theorem get_user_info_other_status_passes_through w c handle resp :
  http_client w = Some c →
  network (sent w) (user_show_request c handle) = Responded resp →
  ¬ (200 ≤ status_code resp ≤ 299) →
  status_code resp ≠ 404 →
  status_code resp ≠ 429 →
  ¬ (500 ≤ status_code resp ≤ 599) →
  get_user_info_core network handle w
  = (after_send w (user_show_request c handle), Raise (HTTPStatusError resp)).
Proof.
  intros Hc Hnet H2 H404 H429 H5.
  rewrite (get_user_info_core_status _ w c handle resp) by done.
  simpl.
  destruct (status_code resp =? 404) eqn:?; [lia|].
  destruct (status_code resp =? 429) eqn:?; [lia|].
  destruct (500 <=? status_code resp) eqn:?;
    destruct (status_code resp <? 600) eqn:?; simpl; try reflexivity; lia.
Qed.

(** X4. A 2xx answer whose body is not JSON: the decoding error leaves
    both core operations untranslated, since neither [except] clause
    matches it. *)
Theorem undecodable_body_is_not_translated w c handle query page :
  http_client w = Some c →
  (∀ ru, network (sent w) (user_show_request c handle) = Responded ru →
     200 ≤ status_code ru ≤ 299 → json ru = None →
     (get_user_info_core network handle w).2 = Raise JSONDecodeError)
  ∧ (∀ rs, network (sent w) (search_problem_request c query page)
           = Responded rs →
       200 ≤ status_code rs ≤ 299 → json rs = None →
       (search_problems_core network query page w).2 = Raise JSONDecodeError).
Proof.
  intros Hc. split.
  - intros ru Hu ? ?.
    by rewrite (get_user_info_core_undecodable w c handle ru).
  - intros rs Hs ? ?.
    by rewrite (search_problems_core_undecodable w c query page rs).
Qed.

Lemma user_from_dict_inv d u :
  UserShowResponse.from_dict d = Some u →
  required validate_str d "handle" = Some (UserShowResponse.handle u)
  ∧ required validate_int d "tier" = Some (UserShowResponse.tier u)
  ∧ required validate_int d "rating" = Some (UserShowResponse.rating u)
  ∧ required validate_int d "solvedCount" = Some (UserShowResponse.solvedCount u).
Proof.
  unfold UserShowResponse.from_dict.
  destruct (required validate_str d "handle"); simpl; [|discriminate].
  destruct (required validate_int d "tier"); simpl; [|discriminate].
  destruct (required validate_int d "rating"); simpl; [|discriminate].
  destruct (required validate_int d "solvedCount"); simpl; [|discriminate].
  intros [= <-]. done.
Qed.

(** X5. fetch-user returns a value only along one path: there was a
    client in the slot, the one request it sent was answered with a 2xx
    status and a JSON object, and each of the four fields of the result is
    what the field's validator made of the object's value under that key.
    No other reply, and no failure, ever yields a value. *)
Theorem get_user_info_core_returns_only_validated w w' handle u :
  get_user_info_core network handle w = (w', Ok u) →
  ∃ c resp d,
    http_client w = Some c
    ∧ w' = after_send w (user_show_request c handle)
    ∧ network (sent w) (user_show_request c handle) = Responded resp
    ∧ 200 ≤ status_code resp ≤ 299
    ∧ json resp = Some (PyDict d)
    ∧ required validate_str d "handle" = Some (UserShowResponse.handle u)
    ∧ required validate_int d "tier" = Some (UserShowResponse.tier u)
    ∧ required validate_int d "rating" = Some (UserShowResponse.rating u)
    ∧ required validate_int d "solvedCount"
      = Some (UserShowResponse.solvedCount u).
Proof.
  intros Hrun.
  destruct (http_client w) as [c|] eqn:Hc;
    [|by rewrite get_user_info_core_inactive in Hrun].
  destruct (network (sent w) (user_show_request c handle))
    as [resp|detail] eqn:Hnet;
    [|by rewrite (get_user_info_core_transport w c handle detail) in Hrun].
  destruct (decide (200 ≤ status_code resp ≤ 299)) as [Hs|Hs];
    [|by rewrite (get_user_info_core_status _ w c handle resp) in Hrun].
  destruct (json resp) as [body|] eqn:Hj;
    [|by rewrite (get_user_info_core_undecodable w c handle resp) in Hrun].
  rewrite (get_user_info_core_success _ w c handle resp body) in Hrun by done.
  destruct body as [| | | | | |d]; simpl in Hrun; try discriminate.
  destruct (UserShowResponse.from_dict d) as [u'|] eqn:Hd; [|discriminate].
  injection Hrun as <- <-.
  destruct (user_from_dict_inv d u' Hd) as (? & ? & ? & ?).
  exists c, resp, d. split_and!; done || lia.
Qed.

Lemma search_from_dict_inv d r :
  ProblemSearchResponse.from_dict d = Some r →
  required validate_int d "count" = Some (ProblemSearchResponse.count r)
  ∧ ∃ l, d !! "items" = Some (PyList l)
       ∧ Forall2 (λ v p, Problem.validate v = Some p) l
           (ProblemSearchResponse.items r).
Proof.
  unfold ProblemSearchResponse.from_dict.
  destruct (required validate_int d "count"); simpl; [|discriminate].
  unfold required at 1.
  destruct (d !! "items") as [v|]; simpl; [|discriminate].
  destruct v as [| | | | |l|]; simpl; try discriminate.
  destruct (mapM Problem.validate l) as [ps|] eqn:Hm; simpl; [|discriminate].
  intros [= <-]. split; [done|]. exists l. split; [done|].
  by apply mapM_Some.
Qed.

(** X6. search-problems returns a value only along one path: a client in
    the slot, a 2xx answer with a JSON object whose [count] validates to
    the result's [count] and whose [items] is a list, every element of
    which validated, position by position, to the result's item at that
    position.  The result never has an item the body did not have. *)
Theorem search_problems_core_returns_only_validated w w' query page r :
  search_problems_core network query page w = (w', Ok r) →
  ∃ c resp d l,
    http_client w = Some c
    ∧ w' = after_send w (search_problem_request c query page)
    ∧ network (sent w) (search_problem_request c query page) = Responded resp
    ∧ 200 ≤ status_code resp ≤ 299
    ∧ json resp = Some (PyDict d)
    ∧ required validate_int d "count" = Some (ProblemSearchResponse.count r)
    ∧ d !! "items" = Some (PyList l)
    ∧ Forall2 (λ v p, Problem.validate v = Some p) l
        (ProblemSearchResponse.items r).
Proof.
  intros Hrun.
  destruct (http_client w) as [c|] eqn:Hc;
    [|by rewrite search_problems_core_inactive in Hrun].
  destruct (network (sent w) (search_problem_request c query page))
    as [resp|detail] eqn:Hnet;
    [|by rewrite (search_problems_core_transport w c query page detail) in Hrun].
  destruct (decide (200 ≤ status_code resp ≤ 299)) as [Hs|Hs];
    [|by rewrite (search_problems_core_status _ w c query page resp) in Hrun].
  destruct (json resp) as [body|] eqn:Hj;
    [|by rewrite (search_problems_core_undecodable w c query page resp) in Hrun].
  rewrite (search_problems_core_success _ w c query page resp body) in Hrun
    by done.
  destruct body as [| | | | | |d]; simpl in Hrun; try discriminate.
  destruct (ProblemSearchResponse.from_dict d) as [r'|] eqn:Hd; [|discriminate].
  injection Hrun as <- <-.
  destruct (search_from_dict_inv d r' Hd) as (Hn & l & Hl & Hps).
  exists c, resp, d, l. split_and!; done || lia.
Qed.

Lemma search_json_invalid_rejected d :
  search_json_invalid (PyDict d) → ProblemSearchResponse.from_dict d = None.
Proof.
  intros Hbad. unfold ProblemSearchResponse.from_dict.
  destruct (required validate_int d "count") as [n|] eqn:E1;
    simpl; [|reflexivity].
  destruct (required ProblemSearchResponse.validate_items d "items")
    as [ps|] eqn:E2; simpl; [|reflexivity].
  exfalso. unfold required in E2.
  destruct Hbad as [Hk | [Hk | [(v & Hk & Hv) | (l & v & Hk & Hin & Hv)]]].
  - apply field_invalid_required in Hk. congruence.
  - rewrite Hk in E2. discriminate.
  - rewrite Hk in E2. simpl in E2. destruct v; try discriminate.
    by eapply Hv.
  - rewrite Hk in E2. simpl in E2.
    apply mapM_Some in E2.
    apply list_elem_of_lookup in Hin as [i Hi].
    destruct (Forall2_lookup_l _ _ _ _ _ E2 Hi) as (p & _ & Hp). congruence.
Qed.

(** X7. search-problems answered with a 2xx status and a malformed body
    raises the model's [ValidationError].  Malformed means: not an object;
    [count] absent or rejected; [items] absent or not a list; or a list
    with a single element that does not validate as a problem.  One bad
    row fails the whole page, no shortened list is returned. *)
Theorem search_problems_malformed_body_rejected w c query page resp body :
  http_client w = Some c →
  network (sent w) (search_problem_request c query page) = Responded resp →
  200 ≤ status_code resp ≤ 299 →
  json resp = Some body →
  search_json_invalid body →
  search_problems_core network query page w
  = (after_send w (search_problem_request c query page),
     Raise (ValidationError "ProblemSearchResponse")).
Proof.
  intros Hc Hnet Hs Hj Hbad.
  rewrite (search_problems_core_success _ w c query page resp body) by done.
  destruct body; try reflexivity.
  simpl. by rewrite search_json_invalid_rejected.
Qed.
End CoreOutcomes.

(** * Further properties of the schema types *)

Section SchemaFacts.
Context `{LaxMode}.

(** X8. The problem models ignore what they do not know ([extra="ignore"]):
    a key that is none of a problem's four fields does not change how a
    row validates, and a key other than [count] and [items] does not
    change how a search body validates. *)
Theorem problem_models_ignore_unknown_keys d key v :
  (key ∉ ["problemId"; "titleKo"; "level"; "isSolvable"] →
     Problem.validate (PyDict (<[key := v]> d)) = Problem.validate (PyDict d))
  ∧ (key ∉ ["count"; "items"] →
       ProblemSearchResponse.model_validate (PyDict (<[key := v]> d))
       = ProblemSearchResponse.model_validate (PyDict d)).
Proof.
  split; intros Hk; simpl.
  - unfold Problem.from_dict, required, optional.
    rewrite !lookup_insert_ne; [done|..]; intros ->; apply Hk; set_solver.
  - unfold ProblemSearchResponse.from_dict, required.
    rewrite !lookup_insert_ne; [done|..]; intros ->; apply Hk; set_solver.
Qed.

(** X9. A problem's title is an optional string.  A [null] title validates
    exactly like a missing one, and a row that validates has no title
    exactly when its [titleKo] is missing or [null], and has the title [s]
    exactly when its [titleKo] is the string [s].  A title of any other
    type rejects the row. *)
Theorem problem_title_is_optional_string d :
  Problem.validate (PyDict (<["titleKo" := PyNone]> d))
  = Problem.validate (PyDict (delete "titleKo" d))
  ∧ (∀ p, Problem.validate (PyDict d) = Some p →
       (Problem.titleKo p = None ↔
          d !! "titleKo" = None ∨ d !! "titleKo" = Some PyNone)
       ∧ (∀ s, Problem.titleKo p = Some s ↔ d !! "titleKo" = Some (PyStr s)))
  ∧ (∀ v, d !! "titleKo" = Some v → v ≠ PyNone → (∀ s, v ≠ PyStr s) →
       Problem.validate (PyDict d) = None).
Proof.
  split; [|split].
  - simpl. unfold Problem.from_dict, required, optional.
    rewrite lookup_insert_eq, lookup_delete_eq.
    rewrite !lookup_insert_ne, !lookup_delete_ne by done. done.
  - intros p. simpl. unfold Problem.from_dict.
    destruct (required validate_int d "problemId"); simpl; [|discriminate].
    unfold optional.
    destruct (d !! "titleKo") as [v|] eqn:Ht.
    + destruct v; simpl;
        destruct (required validate_int d "level"); simpl; try discriminate;
        destruct (required validate_bool d "isSolvable"); simpl;
        try discriminate; intros Hp; simplify_eq; simpl;
        (split; [split; [try discriminate; by right | intros [|]; congruence]
                |intros s'; split; congruence]).
    + simpl.
      destruct (required validate_int d "level"); simpl; [|discriminate].
      destruct (required validate_bool d "isSolvable"); simpl; [|discriminate].
      intros Hp. simplify_eq. simpl.
      split; [split; [by left | done]|intros s'; split; discriminate].
  - intros v Ht Hn Hs. simpl. unfold Problem.from_dict, optional.
    rewrite Ht.
    destruct (required validate_int d "problemId"); simpl; [|done].
    destruct v; simpl; try done; naive_solver.
Qed.

(** X10. Dumping a user and validating the dump gives the user back, in
    every lax mode: [model_dump] loses nothing [model_validate] reads. *)
Theorem user_model_dump_round_trip u :
  UserShowResponse.model_validate (PyDict (UserShowResponse_model_dump u))
  = Ok u.
Proof.
  destruct u as [h t r s]. reflexivity.
Qed.
End SchemaFacts.

(** * The activation window and the demo client *)



Section Activation.
Context `{LaxMode}.
Variable network : list Request → Request → Reply.

(** X11. [lifespan] scopes the client.  Whatever the slot held before, a
    user lookup run inside it goes out through the client [lifespan]
    itself built (base URL [https://solved.ac/api/v3], header
    [X-Solvedac-Language: ko], ten seconds, redirects followed);
    [lifespan] sends nothing of its own and passes the lookup's outcome
    on; and once it is left the slot is empty, so that a later search
    fails as ClientUnavailable and sends nothing. *)
Theorem lifespan_scopes_the_client w handle query page :
  let run := lifespan (get_user_info_core network handle) w in
  sent run.1
  = sent w ++ [ {| via := {| base_url := "https://solved.ac/api/v3";
                             headers := [("X-Solvedac-Language", "ko")];
                             timeout := 10;
                             follow_redirects := true |};
                   path := "/user/show";
                   params := [("handle", PyStr handle)] |} ]
  ∧ run.2 = (get_user_info_core network handle (lifespan_enter w).1).2
  ∧ http_client run.1 = None
  ∧ search_problems_core network query page run.1
    = (run.1, Raise (RuntimeError "HTTP Client is not available.")).
Proof.
  intros run.
  assert (Hcore := get_user_info_core_sends network (lifespan_enter w).1
                     live_client handle eq_refl).
  assert (Hnone : http_client run.1 = None) by apply lifespan_leaves_inactive.
  unfold run, lifespan in *. simpl in *.
  destruct (get_user_info_core network handle _) as [w2 r] eqn:E.
  simpl in *. subst w2. split_and!; reflexivity.
Qed.

End Activation.

(** * Further properties of the bindings *)

Section BindingOutcomes.
Context `{LaxMode}.
Variable network : list Request → Request → Reply.

(** X13. The registered tools and resources are thin: called with a
    handle, or with a query and a page from 1 on, they do exactly what the
    core operation does, the same requests, the same result, the same
    failure. *)
Theorem bindings_pass_valid_calls_through handle query page stub w :
  1 ≤ page →
  solvedac_get_user_info network (Some handle) w
  = get_user_info_core network handle w
  ∧ resource_users network (Some handle) w
    = get_user_info_core network handle w
  ∧ solvedac_search_problems network (Some query) (Some page) w
    = search_problems_core network query page w
  ∧ resource_problems_search network (Some query) (Some page) stub w
    = search_problems_core network query page w.
Proof.
  intros Hp.
  unfold solvedac_get_user_info, resource_users, solvedac_search_problems,
    resource_problems_search. simpl.
  rewrite bool_decide_true by done.
  split_and!; try reflexivity. by destruct stub.
Qed.

(** X14. A call of the search tool that leaves the page out gets the
    declared default: the tool then runs the core search for page 1. *)
Theorem omitted_page_defaults_to_one query w :
  solvedac_search_problems network (Some query) None w
  = search_problems_core network query 1 w.
Proof. reflexivity. Qed.

(** X15. A tool call that leaves out an argument declared with
    [Field(...)] (the handle of the lookup tool, the query of the search
    tool) is rejected with a [ValidationError] before the function runs:
    the world is unchanged and nothing is sent, also when a client is in
    the slot. *)
Theorem missing_required_argument_rejected page w :
  solvedac_get_user_info network None w
  = (w, Raise (ValidationError "solvedac_get_user_info"))
  ∧ solvedac_search_problems network None page w
    = (w, Raise (ValidationError "solvedac_search_problems")).
Proof. split; reflexivity. Qed.
End BindingOutcomes.

(** * The prompt keeps its inputs apart *)

Lemma occurs_app_here c (p q : string) : occurs c (p +:+ String c q) = true.
Proof.
  induction p as [|x p IH].
  - change (Ascii.eqb c c || occurs c q = true). by rewrite Ascii.eqb_refl.
  - change (Ascii.eqb x c || occurs c (p +:+ String c q) = true).
    rewrite IH. apply orb_true_r.
Qed.

Lemma occurs_app c (p q : string) :
  occurs c (p +:+ q) = occurs c p || occurs c q.
Proof.
  induction p as [|x p IH]; [reflexivity|].
  change (Ascii.eqb x c || occurs c (p +:+ q)
          = Ascii.eqb x c || occurs c p || occurs c q).
  rewrite IH. apply orb_assoc.
Qed.

(** A text is cut in one way only at its last occurrence of a character. *)
Lemma cut_at_last c (x x' y y' : string) :
  occurs c y = false → occurs c y' = false →
  x +:+ String c y = x' +:+ String c y' →
  x = x' ∧ y = y'.
Proof.
  intros Hy Hy'. revert x'.
  induction x as [|a x IH]; intros [|a' x'] E.
  - by injection E.
  - change (String c y = String a' (x' +:+ String c y')) in E.
    injection E as _ ->. by rewrite occurs_app_here in Hy.
  - change (String a (x +:+ String c y) = String c y') in E.
    injection E as _ <-. by rewrite occurs_app_here in Hy'.
  - change (String a (x +:+ String c y) = String a' (x' +:+ String c y')) in E.
    injection E as -> E. destruct (IH _ E) as [-> ->]. done.
Qed.

Lemma pretty_N_go_no_lf (x : N) (s : string) :
  occurs lf s = false → occurs lf (pretty_N_go x s) = false.
Proof.
  revert s. induction (N.lt_wf_0 x) as [x _ IH]; intros s Hs.
  assert (x = 0 ∨ 0 < x)%N as [->|Hx] by lia.
  - by rewrite pretty_N_go_0.
  - rewrite pretty_N_go_step by done. apply IH.
    { by apply N.div_lt. }
    change (Ascii.eqb (pretty_N_char (x `mod` 10)) lf || occurs lf s = false).
    rewrite Hs. unfold pretty_N_char. by repeat case_match.
Qed.

(** The decimal rendering of an integer has no line feed in it. *)
Lemma str_of_int_no_lf (n : Z) : occurs lf (str_of_int n) = false.
Proof.
  unfold str_of_int, pretty, pretty_Z.
  destruct n as [|p|p]; [reflexivity|..];
    unfold pretty, pretty_positive, pretty, pretty_N;
    (destruct (decide (N.pos p = 0%N)); [done|]).
  - by apply pretty_N_go_no_lf.
  - rewrite occurs_app. rewrite pretty_N_go_no_lf by done. reflexivity.
Qed.

Lemma regroup_at_last_line (a b d c : string) :
  a +:+ String lf (b +:+ d +:+ LF +:+ c)
  = (a +:+ String lf (b +:+ d)) +:+ String lf c.
Proof.
  rewrite string_app_assoc.
  change (String lf (b +:+ d) +:+ String lf c)
    with (String lf ((b +:+ d) +:+ String lf c)).
  by rewrite string_app_assoc.
Qed.

(** X17. The user message of the prompt determines both inputs: two calls
    of the prompt builder that returned messages whose second messages
    have the same text were made with the same request text and the same
    page.  No request text, whatever line feeds or page lines it contains,
    can pass for another request or another page. *)
Theorem search_workflow_prompt_core_inputs_recoverable
    natural_request page natural_request' page' msgs msgs' usr usr' :
  search_workflow_prompt_core natural_request page = Ok msgs →
  search_workflow_prompt_core natural_request' page' = Ok msgs' →
  msgs !! 1%nat = Some usr →
  msgs' !! 1%nat = Some usr' →
  text (content usr) = text (content usr') →
  natural_request = natural_request' ∧ page = page'.
Proof.
  unfold search_workflow_prompt_core.
  destruct (int_to_str page) as [numeral|] eqn:Hp; [|discriminate].
  destruct (int_to_str page') as [numeral'|] eqn:Hp'; [|discriminate].
  apply int_to_str_ok in Hp as ->. apply int_to_str_ok in Hp' as ->.
  intros [= <-] [= <-] [= <-] [= <-]. simpl. intros E.
  apply (inj (String.app _)) in E.
  change (LF +:+ ?r) with (String lf r) in E.
  rewrite !regroup_at_last_line in E.
  apply cut_at_last in E as [E _]; [|reflexivity..].
  apply cut_at_last in E as [-> E];
    [|by rewrite occurs_app, str_of_int_no_lf..].
  apply (inj (String.app _)) in E.
  by apply str_of_int_inj in E as ->.
Qed.

(** * Concrete runs of the further properties *)

Lemma core_operations_send_exactly_once_witness :
  (@get_user_info_core no_coercion (always (status_only 500))
     "kyungbaee" live_world).1
  = {| http_client := Some live_client;
       sent := sent live_world
               ++ [ {| via := live_client; path := "/user/show";
                       params := [("handle", PyStr "kyungbaee")] |} ] |}
  ∧ (@search_problems_core no_coercion (always (status_only 500))
       "tag:dp" 3 live_world).1
    = {| http_client := Some live_client;
         sent := sent live_world
                 ++ [ {| via := live_client; path := "/search/problem";
                         params := [("query", PyStr "tag:dp");
                                    ("page", PyInt 3)] |} ] |}.
Proof.
  apply (@core_operations_send_exactly_once no_coercion
           (always (status_only 500)) live_world live_client
           "kyungbaee" "tag:dp" 3).
  reflexivity.
Defined.

Lemma transport_failures_are_wrapped_witness :
  (∃ msg, (@get_user_info_core no_coercion (unreachable "timed out")
             "kyungbaee" live_world).2 = Raise (RuntimeError msg)
          ∧ msg = "네트워크 오류로 사용자 정보를 가져오지 못했습니다: " +:+ "timed out"
          ∧ contains msg "timed out")
  ∧ (∃ msg, (@search_problems_core no_coercion (unreachable "timed out")
               "tag:dp" 1 live_world).2 = Raise (RuntimeError msg)
            ∧ msg = "네트워크 오류로 문제 검색에 실패했습니다: " +:+ "timed out"
            ∧ contains msg "timed out").
Proof.
  destruct (@transport_failures_are_wrapped no_coercion (unreachable "timed out")
              live_world live_client "kyungbaee" "tag:dp" 1 eq_refl)
    as [Hu Hs].
  split; [apply (Hu "timed out") | apply (Hs "timed out")]; reflexivity.
Defined.

Lemma get_user_info_other_status_passes_through_witness :
  @get_user_info_core no_coercion (always (status_only 403))
    "kyungbaee" live_world
  = (after_send live_world (user_show_request live_client "kyungbaee"),
     Raise (HTTPStatusError (status_only 403))).
Proof.
  apply (@get_user_info_other_status_passes_through no_coercion
           (always (status_only 403)) live_world live_client "kyungbaee"
           (status_only 403));
    [reflexivity | reflexivity | simpl; lia ..].
Defined.

Lemma undecodable_body_is_not_translated_witness :
  (@get_user_info_core no_coercion (always (status_only 200))
     "kyungbaee" live_world).2 = Raise JSONDecodeError
  ∧ (@search_problems_core no_coercion (always (status_only 200))
       "tag:dp" 1 live_world).2 = Raise JSONDecodeError.
Proof.
  destruct (@undecodable_body_is_not_translated no_coercion
              (always (status_only 200)) live_world live_client
              "kyungbaee" "tag:dp" 1 eq_refl)
    as [Hu Hs].
  split; [apply (Hu (status_only 200)) | apply (Hs (status_only 200))];
    [reflexivity | simpl; lia | reflexivity
    |reflexivity | simpl; lia | reflexivity].
Defined.

Lemma get_user_info_core_returns_only_validated_witness :
  ∃ c resp d,
    http_client live_world = Some c
    ∧ after_send live_world (user_show_request live_client "kyungbaee")
      = after_send live_world (user_show_request c "kyungbaee")
    ∧ always (answer_json (PyDict sample_user_dict)) (sent live_world)
        (user_show_request c "kyungbaee") = Responded resp
    ∧ 200 ≤ status_code resp ≤ 299
    ∧ json resp = Some (PyDict d)
    ∧ @required string validate_str d "handle" = Some "kyungbaee"
    ∧ required (@validate_int no_coercion) d "tier" = Some 15
    ∧ required (@validate_int no_coercion) d "rating" = Some 1800
    ∧ required (@validate_int no_coercion) d "solvedCount" = Some 700.
Proof.
  apply (@get_user_info_core_returns_only_validated no_coercion
           (always (answer_json (PyDict sample_user_dict))) live_world
           (after_send live_world (user_show_request live_client "kyungbaee"))
           "kyungbaee" sample_user).
  reflexivity.
Defined.

Lemma search_problems_core_returns_only_validated_witness :
  ∃ c resp d l,
    http_client live_world = Some c
    ∧ after_send live_world (search_problem_request live_client "tag:dp" 1)
      = after_send live_world (search_problem_request c "tag:dp" 1)
    ∧ always (answer_json (PyDict sample_search_dict)) (sent live_world)
        (search_problem_request c "tag:dp" 1) = Responded resp
    ∧ 200 ≤ status_code resp ≤ 299
    ∧ json resp = Some (PyDict d)
    ∧ required (@validate_int no_coercion) d "count" = Some 57
    ∧ d !! "items" = Some (PyList l)
    ∧ Forall2 (λ v p, @Problem.validate no_coercion v = Some p) l
        sample_problems.
Proof.
  apply (@search_problems_core_returns_only_validated no_coercion
           (always (answer_json (PyDict sample_search_dict))) live_world
           (after_send live_world (search_problem_request live_client "tag:dp" 1))
           "tag:dp" 1
           {| ProblemSearchResponse.count := 57;
              ProblemSearchResponse.items := sample_problems |}).
  reflexivity.
Defined.

Lemma search_problems_malformed_body_rejected_witness :
  @search_problems_core no_coercion
    (always (answer_json (PyDict broken_search_dict))) "tag:dp" 1 live_world
  = (after_send live_world (search_problem_request live_client "tag:dp" 1),
     Raise (ValidationError "ProblemSearchResponse")).
Proof.
  apply (@search_problems_malformed_body_rejected no_coercion
           (always (answer_json (PyDict broken_search_dict)))
           live_world live_client "tag:dp" 1
           (answer_json (PyDict broken_search_dict)) (PyDict broken_search_dict));
    [reflexivity | reflexivity | simpl; lia | reflexivity |].
  right. right. right. eexists _, (PyStr "oops").
  split; [reflexivity|]. split; [|reflexivity].
  apply list_elem_of_further, list_elem_of_here.
Defined.

Lemma problem_models_ignore_unknown_keys_witness :
  @Problem.validate no_coercion
    (PyDict (<["votedUserCount" := PyInt 3]> numbered_title_row))
  = @Problem.validate no_coercion (PyDict numbered_title_row)
  ∧ @ProblemSearchResponse.model_validate no_coercion
      (PyDict (<["page" := PyInt 2]> sample_search_dict))
    = @ProblemSearchResponse.model_validate no_coercion
        (PyDict sample_search_dict).
Proof.
  destruct (@problem_models_ignore_unknown_keys no_coercion numbered_title_row
              "votedUserCount" (PyInt 3)) as [Hrow _].
  destruct (@problem_models_ignore_unknown_keys no_coercion sample_search_dict
              "page" (PyInt 2)) as [_ Hbody].
  split; [apply Hrow | apply Hbody];
    rewrite !not_elem_of_cons; split_and!;
    discriminate || apply not_elem_of_nil.
Defined.

Lemma problem_title_is_optional_string_witness :
  @Problem.validate no_coercion (PyDict numbered_title_row) = None.
Proof.
  destruct (@problem_title_is_optional_string no_coercion numbered_title_row)
    as (_ & _ & Hbad).
  apply (Hbad (PyInt 7)); [reflexivity | discriminate | discriminate].
Defined.

Lemma bindings_pass_valid_calls_through_witness :
  @solvedac_get_user_info no_coercion (always empty_page)
    (Some "kyungbaee") live_world
  = @get_user_info_core no_coercion (always empty_page) "kyungbaee" live_world
  ∧ @resource_users no_coercion (always empty_page)
      (Some "kyungbaee") live_world
    = @get_user_info_core no_coercion (always empty_page) "kyungbaee" live_world
  ∧ @solvedac_search_problems no_coercion (always empty_page)
      (Some "tag:dp") (Some 1) live_world
    = @search_problems_core no_coercion (always empty_page) "tag:dp" 1 live_world
  ∧ @resource_problems_search no_coercion (always empty_page)
      (Some "tag:dp") (Some 1) (Some "x") live_world
    = @search_problems_core no_coercion (always empty_page) "tag:dp" 1 live_world.
Proof.
  apply (@bindings_pass_valid_calls_through no_coercion (always empty_page)
           "kyungbaee" "tag:dp" 1 (Some "x") live_world).
  lia.
Defined.

Lemma search_workflow_prompt_core_inputs_recoverable_witness :
  "DP" = "DP" ∧ 2 = 2.
Proof.
  eapply (search_workflow_prompt_core_inputs_recoverable "DP" 2 "DP" 2).
  - vm_compute. reflexivity.
  - vm_compute. reflexivity.
  - reflexivity.
  - reflexivity.
  - reflexivity.
Defined.

(** The demo client against a remote side that answers everything, and
    against one that cannot be reached. *)
Example main_all_answered :
  @main no_coercion
    (by_path (answer_json (PyDict sample_user_dict))
             (answer_json (PyDict sample_search_dict))) initial_world
  = ({| http_client := None; sent := main_requests |}, Ok ()).
Proof. by vm_compute. Qed.

Example main_unreachable :
  @main no_coercion (unreachable "timed out") initial_world
  = ({| http_client := None; sent := take 1 main_requests |},
     Raise (RuntimeError
       ("네트워크 오류로 사용자 정보를 가져오지 못했습니다: " +:+ "timed out"))).
Proof. reflexivity. Qed.
